(** * invenio-cli: a shallow embedding of [invenio_cli/cli.py]

    The command line tool reads a small configuration file ([.invenio]),
    branches on its flags and calls external programs and libraries
    (cookiecutter, pipenv, docker, docker-compose, shell scripts).

    The embedding keeps the shape of the Python code:
    - Python values are a small dynamic type [pyval]; an instance of
      [InvenioCli] is its attribute dictionary, a [gmap string pyval], so that
      reading an attribute that was never assigned raises [AttributeError];
    - the handlers are programs of a monad [M] that threads the state of the
      process (the configuration file, the chronological list of effects, the
      registered SIGINT handler) and stops at [exit] or at an uncaught
      exception;
    - the outside world is an oracle [Env]: it decides what every external
      call returns or raises, and how many SIGINT signals arrive while the
      call blocks.

    Modelling conventions, fixed here once:
    - the file [.invenio] is represented by its parsed content (sections and
      options, after interpolation); a file that [ConfigParser] cannot parse
      and a project directory that cannot be written are outside the model;
    - [DockerCompose] and [cookiecutter_repo] live in [invenio_cli/utils.py];
      their calls are opaque external calls answered by the oracle. *)

From Stdlib Require Import ZArith.
From stdpp Require Import base option strings pretty gmap list.

Open Scope Z_scope.
Open Scope string_scope.

(** ** The [configparser] library, as far as the tool uses it *)

Module configparser.

(** Parsed content: the [DEFAULT] section and the named sections. *)
Record ConfigParser : Type := {
  defaults : gmap string string;
  sections : gmap string (gmap string string)
}.

#[global] Instance ConfigParser_eq_dec : EqDecision ConfigParser.
Proof. solve_decision. Defined.

(** [ConfigParser()] *)
Definition new : ConfigParser := {| defaults := ∅; sections := ∅ |}.

(** [parser.read(filename)]: a missing file is skipped silently; the options
    of a file that exists are merged into the parser, the file winning. *)
Definition read (parser : ConfigParser) (file : option ConfigParser) : ConfigParser :=
  match file with
  | None => parser
  | Some f =>
      {| defaults := defaults f ∪ defaults parser;
         sections := union_with (λ new old, Some (new ∪ old))
                                (sections f) (sections parser) |}
  end.

(** [parser.sections()]: the names of the sections, [DEFAULT] excluded. *)
Definition section_names (parser : ConfigParser) : gset string :=
  dom (sections parser).

(** [parser[sect][key]]: [None] stands for [KeyError]. The section
    must exist; the option is looked up in it and then in the defaults. *)
Definition getitem (parser : ConfigParser) (sect key : string) : option string :=
  match sections parser !! sect with
  | None => None
  | Some opts =>
      match opts !! key with
      | Some v => Some v
      | None => defaults parser !! key
      end
  end.

(** [parser[sect] = {}] *)
Definition set_section (parser : ConfigParser) (sect : string) : ConfigParser :=
  {| defaults := defaults parser;
     sections := <[sect := ∅]> (sections parser) |}.

(** [parser.set(sect, key, value)] for a string [value]; [None] stands
    for [NoSectionError]. *)
Definition set (parser : ConfigParser) (sect key value : string)
  : option ConfigParser :=
  match sections parser !! sect with
  | None => None
  | Some opts =>
      Some {| defaults := defaults parser;
              sections := <[sect := <[key := value]> opts]> (sections parser) |}
  end.

End configparser.

Export configparser (ConfigParser).

(** ** Python values, exceptions, effects *)

Inductive pyval : Type :=
  | PNone
  | PStr (s : string)
  | PInt (n : Z)
  | PConfig (c : ConfigParser).

#[global] Instance pyval_eq_dec : EqDecision pyval.
Proof. solve_decision. Defined.

(** [str(v)], as used by [str.format]. *)
Definition py_str (v : pyval) : string :=
  match v with
  | PNone => "None"
  | PStr s => s
  | PInt n => pretty n
  | PConfig _ => "<configparser.ConfigParser object>"
  end.

Inductive exn : Type :=
  | AttributeError (name : string)
  | KeyError (key : string)
  | TypeError (msg : string)
  | NoSectionError (sect : string)
  | KeyboardInterrupt
  | RecursionError
  | LibraryError (what : string).

#[global] Instance exn_eq_dec : EqDecision exn.
Proof. solve_decision. Defined.

(** Everything the process does that is visible from outside, in the order
    in which it happens. *)
Inductive effect : Type :=
  | Print (line : string)
  | LoggingError (msg : string)
  | LoggingDebug (msg : string)
  | Cookiecutter (flavour : pyval)
  | SubprocessCall (args : list string) (cwd : pyval)
  | DockerFromEnv
  | ImagesBuild (path : pyval) (dockerfile tag : string)
  | CreateContainers (dev : bool) (cwd : pyval)
  | StartContainers (dev : bool) (cwd : pyval) (bg : bool)
  | StopContainers (cwd : pyval)
  | DestroyContainers (dev : bool) (cwd : pyval).

#[global] Instance effect_eq_dec : EqDecision effect.
Proof. solve_decision. Defined.

(** The calls that start a process or drive an external engine or template
    tool. [docker.from_env()] only builds a client object from the environment
    variables; printing and logging stay inside the process. *)
Definition is_external_call (e : effect) : bool :=
  match e with
  | Cookiecutter _ | SubprocessCall _ _ | ImagesBuild _ _ _
  | CreateContainers _ _ | StartContainers _ _ _ | StopContainers _
  | DestroyContainers _ _ => true
  | Print _ | LoggingError _ | LoggingDebug _ | DockerFromEnv => false
  end.

Definition external_calls (l : list effect) : list effect :=
  List.filter is_external_call l.

Definition is_stop (e : effect) : bool :=
  match e with StopContainers _ => true | _ => false end.

(** ** The process and the outside world *)

(** The handler registered for SIGINT: Python's default one, which raises
    [KeyboardInterrupt], or the closure [signal_handler] that [server]
    defines, which captures [app_builder]. *)
Inductive sighandler : Type :=
  | default_int_handler
  | server_signal_handler (app_builder : gmap string pyval).

Record State : Type := {
  dotfile : option ConfigParser;   (* [.invenio]: absent, or its content *)
  effects : list effect;           (* oldest first *)
  sigint : sighandler
}.

(** A process starts with Python's default SIGINT handler and has done
    nothing yet. *)
Definition boot (file : option ConfigParser) : State :=
  {| dotfile := file; effects := []; sigint := default_int_handler |}.

(** What the world answers to a call: the value it returns or the exception
    it raises, and the number of SIGINT that arrive while it blocks. *)
Record reply : Type := {
  outcome : pyval + exn;
  sigints : nat
}.

Record Env : Type := {
  respond : list effect → effect → reply;   (* history so far, the call *)
  recursion_limit : nat                     (* [sys.getrecursionlimit()] *)
}.

Inductive result (A : Type) : Type :=
  | Ok (a : A)
  | Exit (code : Z)       (* [SystemExit] *)
  | Raise (e : exn).      (* any other uncaught exception *)
Arguments Ok {A} a.
Arguments Exit {A} code.
Arguments Raise {A} e.

Definition M (A : Type) : Type := Env → State → result A * State.

#[global] Instance M_ret : MRet M := λ A a _ s, (Ok a, s).

#[global] Instance M_bind : MBind M := λ A B k m env s,
  match m env s with
  | (Ok a, s') => k a env s'
  | (Exit c, s') => (Exit c, s')
  | (Raise e, s') => (Raise e, s')
  end.

Definition raise {A} (e : exn) : M A := λ _ s, (Raise e, s).

(** The builtin [exit(code)] raises [SystemExit]. *)
Definition exit {A} (code : Z) : M A := λ _ s, (Exit code, s).

(** [try: body except KeyError: handler]. [SystemExit] and the other
    exceptions pass through. *)
Definition try_except_KeyError {A} (body handler : M A) : M A := λ env s,
  match body env s with
  | (Raise (KeyError _), s') => handler env s'
  | r => r
  end.

(** The exit status the shell sees: an uncaught exception ends the
    interpreter with status 1. *)
Definition exit_status {A} (r : result A) : Z :=
  match r with
  | Ok _ => 0
  | Exit c => c
  | Raise _ => 1
  end.

Definition append_effects (s : State) (l : list effect) : State :=
  {| dotfile := dotfile s; effects := effects s ++ l; sigint := sigint s |}.

Definition emit (e : effect) : M unit := λ _ s, (Ok tt, append_effects s [e]).

Definition print (line : string) : M unit := emit (Print line).

Module logging.
Definition error (msg : string) : M unit := emit (LoggingError msg).
Definition debug (msg : string) : M unit := emit (LoggingDebug msg).
End logging.

(** [obj.name]: a lookup in the attribute dictionary of the instance. *)
Definition getattr (obj : gmap string pyval) (name : string) : M pyval :=
  match obj !! name with
  | Some v => mret v
  | None => raise (AttributeError name)
  end.

(** [os.path.isfile(CONFIG_FILENAME)] *)
Definition os_path_isfile : M bool := λ _ s,
  (Ok (bool_decide (is_Some (dotfile s))), s).

(** [parser.read(CONFIG_FILENAME)] on the file as it is now. *)
Definition config_read (parser : ConfigParser) : M ConfigParser := λ _ s,
  (Ok (configparser.read parser (dotfile s)), s).

(** [open(CONFIG_FILENAME, 'w')]: the file is created, or cut to length zero
    when it exists, at the moment it is opened. *)
Definition open_w : M unit := λ _ s,
  (Ok tt, {| dotfile := Some configparser.new; effects := effects s; sigint := sigint s |}).

(** [parser.write(configfile)] *)
Definition config_write (parser : ConfigParser) : M unit := λ _ s,
  (Ok tt, {| dotfile := Some parser; effects := effects s; sigint := sigint s |}).

(** [parser[sect][key]]: [KeyError] names the section when it is missing,
    the option otherwise. *)
Definition config_getitem (parser : ConfigParser) (sect key : string) : M string :=
  match configparser.getitem parser sect key with
  | Some v => mret v
  | None =>
      if bool_decide (sect ∈ configparser.section_names parser)
      then raise (KeyError key)
      else raise (KeyError sect)
  end.

(** [parser[sect][key] = value]: the parser accepts strings only. *)
Definition config_setitem (parser : ConfigParser) (sect key : string) (value : pyval)
  : M ConfigParser :=
  match value with
  | PStr v =>
      match configparser.set parser sect key v with
      | Some parser' => mret parser'
      | None => raise (NoSectionError sect)
      end
  | _ => raise (TypeError "option values must be strings")
  end.

(** [signal.signal(signal.SIGINT, handler)] *)
Definition signal_signal (handler : sighandler) : M unit := λ _ s,
  (Ok tt, {| dotfile := dotfile s; effects := effects s; sigint := handler |}).

Definition from_outcome (o : pyval + exn) : M pyval :=
  match o with
  | inl v => mret v
  | inr e => raise e
  end.

(** The closure that [server] registers for SIGINT (cli.py, lines 205-207).
    [call] is the primitive that performs an external call; it is a parameter
    because the handler runs inside such a call. *)
Definition signal_handler (call : effect → M pyval) (app_builder : gmap string pyval)
  : M unit :=
  print "SIGINT, stopping server...";;
  cwd ← getattr app_builder "project_name";
  call (StopContainers cwd);;
  mret tt.

(** What the interpreter does when one SIGINT arrives. *)
Definition on_sigint (handle : gmap string pyval → M unit) : M unit := λ env s,
  match sigint s with
  | default_int_handler => (Raise KeyboardInterrupt, s)
  | server_signal_handler app_builder => handle app_builder env s
  end.

Fixpoint deliver (run : M unit) (n : nat) : M unit :=
  match n with
  | O => mret tt
  | S n' => run;; deliver run n'
  end.

(** An external call: it is recorded, the registered handler runs once for
    every SIGINT that arrives while the call blocks (an exception of the
    handler ends the call), then the call returns or raises what the world
    decided. A handler may itself be interrupted inside its own external
    call; the nesting is bounded by the interpreter's recursion limit. *)
Fixpoint call_at (depth : nat) (c : effect) : M pyval := λ env s,
  let r := respond env (effects s) c in
  let handle :=
    match depth with
    | O => λ _, raise RecursionError
    | S d => signal_handler (call_at d)
    end in
  (emit c;;
   deliver (on_sigint handle) (sigints r);;
   from_outcome (outcome r)) env s.

Definition external (c : effect) : M pyval := λ env s,
  call_at (recursion_limit env) c env s.

(** [subprocess.call(args, cwd=cwd)] returns the exit code of the child. *)
Definition subprocess_call (args : list string) (cwd : pyval) : M pyval :=
  external (SubprocessCall args cwd).

(** [cookiecutter] called with the keyword arguments that
    [cookiecutter_repo(flavour)] selects; it returns the directory of the
    generated project. *)
Definition cookiecutter (flavour : pyval) : M pyval :=
  external (Cookiecutter flavour).

Module docker.
Definition from_env : M pyval := external DockerFromEnv.
Definition images_build (path : pyval) (dockerfile tag : string) : M pyval :=
  external (ImagesBuild path dockerfile tag).
End docker.

Module DockerCompose.
Definition create_containers (dev : bool) (cwd : pyval) : M pyval :=
  external (CreateContainers dev cwd).
Definition start_containers (dev : bool) (cwd : pyval) (bg : bool) : M pyval :=
  external (StartContainers dev cwd bg).
Definition stop_containers (cwd : pyval) : M pyval :=
  external (StopContainers cwd).
Definition destroy_containers (dev : bool) (cwd : pyval) : M pyval :=
  external (DestroyContainers dev cwd).
End DockerCompose.

(** ** The program: [invenio_cli/cli.py] *)

Definition CONFIG_FILENAME : string := ".invenio".

(** Truth value of a Python object in [if v:]. A parser object is a mapping
    that always holds its default section, hence true. *)
Definition truthy (v : pyval) : bool :=
  match v with
  | PNone => false
  | PStr s => bool_decide (s ≠ "")
  | PInt n => bool_decide (n ≠ 0)
  | PConfig _ => true
  end.

(** The receiver of [.read] and [.sections] must be a parser. *)
Definition as_parser (v : pyval) : M ConfigParser :=
  match v with
  | PConfig c => mret c
  | _ => raise (AttributeError "read")
  end.

(** [InvenioCli.__init__(self, flavour=None)] (lines 36-69); the result is the
    attribute dictionary of [self]. *)
Definition InvenioCli (flavour : pyval) : M (gmap string pyval) :=
  let self : gmap string pyval := {[ "cwd" := PNone ]} in
  config ← config_read configparser.new;
  let self := <[ "config" := PConfig config ]> self in
  isfile ← os_path_isfile;
  if (isfile : bool) then
    (* There is a .invenio config file *)
    self ← try_except_KeyError
      (config_flavour ← config_getitem config "cli" "flavour";
       (if truthy flavour && bool_decide (flavour ≠ PStr config_flavour)
        then logging.error "Config flavour in .invenio differs form the specified";;
             exit 1
        else mret tt);;
       mret (<[ "flavour" := PStr config_flavour ]> self))
      (logging.error "Flavour not configured";;
       exit 1);
    try_except_KeyError
      (cwd ← config_getitem config "cli" "cwd";
       mret (<[ "cwd" := PStr cwd ]> self))
      (logging.debug "Working directory not configured";;
       mret self)
  else if truthy flavour then
    (* There is no .invenio file but the flavour was provided via CLI *)
    mret (<[ "flavour" := flavour ]> self)
  else
    (* No value for flavour in .invenio nor CLI *)
    logging.error "No flavour specified.";;
    exit 1.

(** The group callback [cli(ctx, flavour)] (lines 76-78) builds [ctx.obj]. *)
Definition cli (flavour : pyval) : M (gmap string pyval) :=
  InvenioCli flavour.

(** [init(cli_obj)] (lines 83-103) *)
Definition init (cli_obj : gmap string pyval) : M unit :=
  flavour ← getattr cli_obj "flavour";
  print ("Initializing " +:+ py_str flavour +:+ " application...");;
  flavour ← getattr cli_obj "flavour";
  context ← cookiecutter flavour;
  config ← getattr cli_obj "config";
  open_w;;
  (* body of the [with] block *)
  config ← as_parser config;
  config ← config_read config;
  if bool_decide ("cli" ∈ configparser.section_names config) then
    logging.error
      ("An invenio-cli configuration file " +:+ "(" +:+ CONFIG_FILENAME +:+ ")"
       +:+ "already exists. Cannot override")
  else
    let config := configparser.set_section config "cli" in
    config ← config_setitem config "cli" "cwd" context;
    flavour ← getattr cli_obj "flavour";
    config ← config_setitem config "cli" "flavour" flavour;
    config_write config.

(** [build(cli_obj, base, app, dev, lock)] (lines 118-164) *)
Definition build (cli_obj : gmap string pyval) (base app dev lock : bool) : M unit :=
  flavour ← getattr cli_obj "flavour";
  print ("Building " +:+ py_str flavour +:+ " application...");;
  (if lock then
     (* Lock dependencies *)
     print "Locking dependencies...";;
     cwd ← getattr cli_obj "cwd";
     subprocess_call ["pipenv"; "lock"] cwd;;
     mret tt
   else mret tt);;
  if dev then
    print "Bootstrapping development server...";;
    cwd ← getattr cli_obj "cwd";
    subprocess_call ["/bin/bash"; "scripts/bootstrap"; "--dev"] cwd;;
    print "Creating development services...";;
    cwd ← getattr cli_obj "cwd";
    DockerCompose.create_containers true cwd;;
    mret tt
  else
    (if base then
       flavour ← getattr cli_obj "flavour";
       print ("Building " +:+ py_str flavour +:+ " base docker image...");;
       client ← docker.from_env;
       path ← getattr cli_obj "cwd";
       project_name ← getattr cli_obj "cwd";
       docker.images_build path "Dockerfile.base"
         (py_str project_name +:+ "-base:latest");;
       mret tt
     else mret tt);;
    (if app then
       flavour ← getattr cli_obj "flavour";
       print ("Building " +:+ py_str flavour +:+ " app docker image...");;
       client ← docker.from_env;
       path ← getattr cli_obj "cwd";
       project_name ← getattr cli_obj "cwd";
       docker.images_build path "Dockerfile"
         (py_str project_name +:+ ":latest");;
       mret tt
     else mret tt);;
    print "Creating full services...";;
    cwd ← getattr cli_obj "cwd";
    DockerCompose.create_containers false cwd;;
    mret tt.

(** [setup(app_builder, dev)] (lines 171-189) *)
Definition setup (app_builder : gmap string pyval) (dev : bool) : M unit :=
  name ← getattr app_builder "name";
  print ("Setting up environment for " +:+ py_str name +:+ " application...");;
  if dev then
    cwd ← getattr app_builder "project_name";
    subprocess_call ["/bin/bash"; "scripts/setup"; "--dev"] cwd;;
    mret tt
  else
    print "Setting up instance...";;
    cwd ← getattr app_builder "project_name";
    subprocess_call
      ["docker-compose"; "exec"; "web-api"; "/bin/bash"; "-c";
       "/bin/bash /opt/invenio/src/scripts/setup"] cwd;;
    mret tt.

(** [server(app_builder, dev, bg, start)] (lines 200-235) *)
Definition server (app_builder : gmap string pyval) (dev bg start : bool) : M unit :=
  name ← getattr app_builder "name";
  print ("Starting/Stopping server for " +:+ py_str name +:+ " application...");;
  if start then
    signal_signal (server_signal_handler app_builder);;
    if dev then
      cwd ← getattr app_builder "project_name";
      DockerCompose.start_containers true cwd bg;;
      cwd ← getattr app_builder "project_name";
      subprocess_call ["/bin/bash"; "scripts/server"] cwd;;
      mret tt
    else
      cwd ← getattr app_builder "project_name";
      DockerCompose.start_containers false cwd bg;;
      mret tt
  else
    cwd ← getattr app_builder "project_name";
    DockerCompose.stop_containers cwd;;
    mret tt.

(** [destroy(app_builder, dev)] (lines 242-246) *)
Definition destroy (app_builder : gmap string pyval) (dev : bool) : M unit :=
  name ← getattr app_builder "name";
  print ("Destroying " +:+ py_str name +:+ " application...");;
  cwd ← getattr app_builder "project_name";
  DockerCompose.destroy_containers dev cwd;;
  mret tt.

(** [upgrade(app_builder)] (lines 251-255) *)
Definition upgrade (app_builder : gmap string pyval) : M unit :=
  name ← getattr app_builder "name";
  print ("Upgrading server for " +:+ py_str name +:+ " application...");;
  print "ERROR: Not supported yet...".

(** A command line: the sub-command with the values click gives its flags. *)
Inductive command : Type :=
  | Init
  | Build (base app dev lock : bool)
  | Setup (dev : bool)
  | Server (dev bg start : bool)
  | Destroy (dev : bool)
  | Upgrade.

Definition invoke (cmd : command) (obj : gmap string pyval) : M unit :=
  match cmd with
  | Init => init obj
  | Build base app dev lock => build obj base app dev lock
  | Setup dev => setup obj dev
  | Server dev bg start => server obj dev bg start
  | Destroy dev => destroy obj dev
  | Upgrade => upgrade obj
  end.

(** One run of the tool: the group callback, then the sub-command. *)
Definition main (flavour : pyval) (cmd : command) : M unit :=
  obj ← cli flavour;
  invoke cmd obj.

Definition run (env : Env) (file : option ConfigParser) (flavour : pyval)
    (cmd : command) : result unit * State :=
  main flavour cmd env (boot file).

(** ** Definitions used by the statements *)

(** A world in which every call returns (with any value, so any exit code)
    and no signal arrives. *)
Definition returning (env : Env) : Prop :=
  ∀ h c, sigints (respond env h c) = 0%nat ∧ ∃ v, outcome (respond env h c) = inl v.

(** The fixed sequence of external calls of a build, after section 4.3 of the
    specification: the dependency lock when requested; in dev mode the
    bootstrap script and the dev containers; in prod mode the base image and
    the app image when requested, then the full containers. *)
Definition build_steps (base app dev lock : bool) (cwd : pyval) : list effect :=
  (if lock then [SubprocessCall ["pipenv"; "lock"] cwd] else []) ++
  (if dev then
     [SubprocessCall ["/bin/bash"; "scripts/bootstrap"; "--dev"] cwd;
      CreateContainers true cwd]
   else
     (if base
      then [ImagesBuild cwd "Dockerfile.base" (py_str cwd +:+ "-base:latest")]
      else []) ++
     (if app
      then [ImagesBuild cwd "Dockerfile" (py_str cwd +:+ ":latest")]
      else []) ++
     [CreateContainers false cwd]).

(** The working directory that an external call is given. *)
Definition call_cwd (e : effect) : option pyval :=
  match e with
  | SubprocessCall _ cwd | CreateContainers _ cwd | StartContainers _ cwd _
  | StopContainers cwd | DestroyContainers _ cwd => Some cwd
  | ImagesBuild path _ _ => Some path
  | _ => None
  end.

(** [self] after the first two assignments of [__init__]. *)
Definition self0 (config : ConfigParser) : gmap string pyval :=
  <[ "config" := PConfig config ]> {[ "cwd" := PNone ]}.

(** What loading leaves behind when the file exists and holds flavour [P]:
    the working directory, the object, the log. *)
Definition loaded_cwd (cfg : ConfigParser) : pyval :=
  match configparser.getitem cfg "cli" "cwd" with
  | Some d => PStr d
  | None => PNone
  end.

Definition loaded_self (cfg : ConfigParser) (P : string) : gmap string pyval :=
  match configparser.getitem cfg "cli" "cwd" with
  | Some d => <[ "cwd" := PStr d ]> (<[ "flavour" := PStr P ]> (self0 cfg))
  | None => <[ "flavour" := PStr P ]> (self0 cfg)
  end.

Definition loaded_log (cfg : ConfigParser) : list effect :=
  match configparser.getitem cfg "cli" "cwd" with
  | Some _ => []
  | None => [LoggingDebug "Working directory not configured"]
  end.

(** What is known of the object and of the state once loading succeeded. *)
Record loaded (s : State) (obj : gmap string pyval) (s' : State) : Prop := {
  loaded_no_name : obj !! "name" = None;
  loaded_no_project_name : obj !! "project_name" = None;
  loaded_flavour : ∃ fl, obj !! "flavour" = Some fl;
  loaded_cwd_attr :
    obj !! "cwd" = Some (from_option loaded_cwd PNone (dotfile s));
  loaded_config :
    obj !! "config" = Some (PConfig (default configparser.new (dotfile s)));
  loaded_state :
    s' = append_effects s (from_option loaded_log [] (dotfile s))
}.

(** ** Sample directories and worlds *)

(** A project directory initialised by [init] for flavour RDM. *)
Definition cfg_initialised : ConfigParser :=
  {| configparser.defaults := ∅;
     configparser.sections :=
       {[ "cli" := {[ "cwd" := "my-site"; "flavour" := "RDM" ]} ]} |}.

(** A configuration file with the flavour and without the working
    directory. *)
Definition cfg_without_cwd : ConfigParser :=
  {| configparser.defaults := ∅;
     configparser.sections := {[ "cli" := {[ "flavour" := "RDM" ]} ]} |}.

(** A world in which every call returns [v] and no signal arrives. *)
Definition env_ok (v : pyval) : Env :=
  {| respond := λ _ _, {| outcome := inl v; sigints := 0 |};
     recursion_limit := 1000 |}.

(** A world in which [pipenv lock] exits with status 1 and every other call
    succeeds. *)
Definition is_lock_step (c : effect) : bool :=
  match c with
  | SubprocessCall args _ => bool_decide (args = ["pipenv"; "lock"])
  | _ => false
  end.

Definition env_lock_fails : Env :=
  {| respond := λ _ c,
       {| outcome := inl (PInt (if is_lock_step c then 1 else 0)); sigints := 0 |};
     recursion_limit := 1000 |}.

(** A world in which two SIGINT arrive while the foreground server script
    runs, and none at any other moment. *)
Definition is_server_script (c : effect) : bool :=
  match c with
  | SubprocessCall args _ => bool_decide (args = ["/bin/bash"; "scripts/server"])
  | _ => false
  end.

Definition env_two_interrupts : Env :=
  {| respond := λ _ c,
       {| outcome := inl (PInt 0);
          sigints := if is_server_script c then 2%nat else 0%nat |};
     recursion_limit := 1000 |}.

(** ** Definitions used by the further properties *)



(** A world in which the template tool fails. *)
Definition template_raises (env : Env) : Prop :=
  ∀ h fl, ∃ e, outcome (respond env h (Cookiecutter fl)) = inr e.

(** The calls that start, stop or remove the containers. *)
Definition is_lifecycle (e : effect) : bool :=
  match e with
  | StartContainers _ _ _ | StopContainers _ | DestroyContainers _ _ => true
  | _ => false
  end.

(** A world in which the template tool fails with [LibraryError] and every
    other call returns 0. *)
Definition is_template (c : effect) : bool :=
  match c with Cookiecutter _ => true | _ => false end.

Definition env_template_fails : Env :=
  {| respond := λ _ c,
       {| outcome := if is_template c
                     then inr (LibraryError "OutputDirExistsException")
                     else inl (PInt 0);
          sigints := 0 |};
     recursion_limit := 1000 |}.

(** When a run gets past the loading of the configuration: without file a
    flavour must be supplied; with a file the file must hold a flavour and
    the supplied one, if any, must be that one. *)
Definition loadable (file : option ConfigParser) (flavour : pyval) : Prop :=
  match file with
  | None => truthy flavour = true
  | Some cfg =>
      ∃ P, configparser.getitem cfg "cli" "flavour" = Some P ∧
           (truthy flavour = false ∨ flavour = PStr P)
  end.

(** * Properties *)

(** ** The monad and the parser *)

Lemma bind_run {A B} (m : M A) (k : A → M B) env s :
  (m ≫= k) env s =
    match m env s with
    | (Ok a, s') => k a env s'
    | (Exit c, s') => (Exit c, s')
    | (Raise e, s') => (Raise e, s')
    end.
Proof. reflexivity. Qed.

(** Unfolds the monad and the primitives that do not reach the world. *)
Ltac msimpl :=
  cbv beta iota zeta delta
    [mbind M_bind mret M_ret raise exit emit print logging.error logging.debug
     os_path_isfile config_read open_w config_write signal_signal from_outcome
     try_except_KeyError as_parser cli main run invoke].

Lemma append_effects_nil s : append_effects s [] = s.
Proof. destruct s. unfold append_effects. cbn. by rewrite app_nil_r. Qed.

Lemma append_effects_app s l1 l2 :
  append_effects (append_effects s l1) l2 = append_effects s (l1 ++ l2).
Proof. unfold append_effects. cbn. by rewrite app_assoc. Qed.

Lemma read_new_parser file :
  configparser.read configparser.new (Some file) = file.
Proof.
  destruct file as [d ss]. unfold configparser.read, configparser.new. cbn.
  f_equal.
  - apply (right_id_L ∅ (∪)).
  - apply (right_id_L ∅ (union_with _)).
Qed.

Lemma read_truncated_file parser :
  configparser.read parser (Some configparser.new) = parser.
Proof.
  destruct parser as [d ss]. unfold configparser.read, configparser.new. cbn.
  f_equal.
  - apply (left_id_L ∅ (∪)).
  - apply (left_id_L ∅ (union_with _)).
Qed.

Lemma getitem_section parser sect key v :
  configparser.getitem parser sect key = Some v →
  sect ∈ configparser.section_names parser.
Proof.
  unfold configparser.getitem, configparser.section_names.
  destruct (configparser.sections parser !! sect) eqn:E; [|discriminate].
  intros _. apply elem_of_dom. eauto.
Qed.

Lemma getitem_new sect key : configparser.getitem configparser.new sect key = None.
Proof. unfold configparser.getitem, configparser.new. cbn. by rewrite lookup_empty. Qed.

(** ** Configuration loading, case by case *)

Lemma load_absent_without_flavour flavour env s :
  dotfile s = None → truthy flavour = false →
  InvenioCli flavour env s =
    (Exit 1, append_effects s [LoggingError "No flavour specified."]).
Proof.
  intros Hf Ht. unfold InvenioCli. msimpl. rewrite Hf. cbn. rewrite Ht.
  reflexivity.
Qed.

Lemma load_absent_with_flavour flavour env s :
  dotfile s = None → truthy flavour = true →
  InvenioCli flavour env s =
    (Ok (<[ "flavour" := flavour ]> (self0 configparser.new)), s).
Proof.
  intros Hf Ht. unfold InvenioCli. msimpl. rewrite Hf. cbn. rewrite Ht.
  reflexivity.
Qed.

Lemma load_without_flavour_key flavour env s cfg :
  dotfile s = Some cfg →
  configparser.getitem cfg "cli" "flavour" = None →
  InvenioCli flavour env s =
    (Exit 1, append_effects s [LoggingError "Flavour not configured"]).
Proof.
  intros Hf Hk. unfold InvenioCli, config_getitem. msimpl.
  rewrite Hf, read_new_parser, Hk. cbn.
  destruct (bool_decide _); reflexivity.
Qed.

Lemma load_mismatch flavour env s cfg P :
  dotfile s = Some cfg →
  configparser.getitem cfg "cli" "flavour" = Some P →
  truthy flavour = true → flavour ≠ PStr P →
  InvenioCli flavour env s =
    (Exit 1, append_effects s
       [LoggingError "Config flavour in .invenio differs form the specified"]).
Proof.
  intros Hf Hk Ht Hne. unfold InvenioCli, config_getitem. msimpl.
  rewrite Hf, read_new_parser, Hk, Ht. cbn.
  rewrite bool_decide_eq_true_2 by done. reflexivity.
Qed.

Lemma load_present flavour env s cfg P :
  dotfile s = Some cfg →
  configparser.getitem cfg "cli" "flavour" = Some P →
  truthy flavour = false ∨ flavour = PStr P →
  InvenioCli flavour env s =
    (Ok (loaded_self cfg P), append_effects s (loaded_log cfg)).
Proof.
  intros Hf Hk Hm. unfold InvenioCli, config_getitem. msimpl.
  rewrite Hf, read_new_parser, Hk. cbn.
  replace (truthy flavour && bool_decide (flavour ≠ PStr P)) with false; cycle 1.
  { destruct Hm as [-> | ->]; [done|].
    rewrite bool_decide_eq_false_2 by (intros H; by apply H).
    by rewrite andb_false_r. }
  unfold loaded_self, loaded_log.
  destruct (configparser.getitem cfg "cli" "cwd") eqn:Hc; cbn.
  - destruct s; unfold append_effects; cbn. by rewrite app_nil_r.
  - rewrite bool_decide_eq_true_2 by (by eapply getitem_section). reflexivity.
Qed.

Lemma cli_ok_inv flavour env s obj s' :
  cli flavour env s = (Ok obj, s') → loaded s obj s'.
Proof.
  unfold cli. intros H.
  assert (∀ cfg P, dotfile s = Some cfg →
            loaded s (loaded_self cfg P) (append_effects s (loaded_log cfg)))
    as Hpresent.
  { intros cfg P Hf. unfold loaded_self.
    split; rewrite ?Hf; cbn; unfold loaded_cwd, loaded_log, self0.
    all: destruct (configparser.getitem cfg "cli" "cwd").
    all: simplify_map_eq; eauto. }
  destruct (dotfile s) as [cfg|] eqn:Hf.
  - destruct (configparser.getitem cfg "cli" "flavour") as [P|] eqn:Hk.
    + destruct (truthy flavour) eqn:Ht.
      * destruct (decide (flavour = PStr P)) as [->|Hne].
        -- rewrite (load_present _ _ _ cfg P) in H by auto.
           injection H as <- <-. by apply Hpresent.
        -- rewrite (load_mismatch _ _ _ cfg P) in H by auto. discriminate.
      * rewrite (load_present _ _ _ cfg P) in H by auto.
        injection H as <- <-. by apply Hpresent.
    + rewrite (load_without_flavour_key _ _ _ cfg) in H by auto. discriminate.
  - destruct (truthy flavour) eqn:Ht.
    + rewrite load_absent_with_flavour in H by auto.
      injection H as <- <-.
      split; rewrite ?Hf; cbn; unfold self0; simplify_map_eq; eauto.
      by rewrite append_effects_nil.
    + rewrite load_absent_without_flavour in H by auto. discriminate.
Qed.

Lemma cli_cases flavour env s :
  (∃ obj s', cli flavour env s = (Ok obj, s') ∧ loaded s obj s') ∨
  (∃ msg, cli flavour env s = (Exit 1, append_effects s [LoggingError msg])).
Proof.
  destruct (dotfile s) as [cfg|] eqn:Hf.
  - destruct (configparser.getitem cfg "cli" "flavour") as [P|] eqn:Hk.
    + destruct (truthy flavour) eqn:Ht.
      * destruct (decide (flavour = PStr P)) as [->|Hne].
        -- left. do 2 eexists. split; [by apply (load_present _ _ _ cfg P); auto|].
           apply (cli_ok_inv (PStr P) env). by apply (load_present _ _ _ cfg P); auto.
        -- right. eexists. by apply (load_mismatch _ _ _ cfg P).
      * left. do 2 eexists. split; [by apply (load_present _ _ _ cfg P); auto|].
        apply (cli_ok_inv flavour env). by apply (load_present _ _ _ cfg P); auto.
    + right. eexists. by apply (load_without_flavour_key _ _ _ cfg).
  - destruct (truthy flavour) eqn:Ht.
    + left. do 2 eexists. split; [by apply load_absent_with_flavour|].
      apply (cli_ok_inv flavour env). by apply load_absent_with_flavour.
    + right. eexists. by apply load_absent_without_flavour.
Qed.

Lemma loaded_quiet file obj s0 :
  loaded (boot file) obj s0 →
  dotfile s0 = file ∧ sigint s0 = default_int_handler ∧
  external_calls (effects s0) = [].
Proof.
  intros [_ _ _ _ _ ->]. cbn. repeat split.
  destruct file as [cfg|]; cbn; [|done].
  unfold loaded_log. by destruct (configparser.getitem cfg "cli" "cwd").
Qed.

Lemma run_after_load env file flavour obj s cmd :
  cli flavour env (boot file) = (Ok obj, s) →
  run env file flavour cmd = invoke cmd obj env s.
Proof. intros H. unfold run, main. msimpl. fold (cli flavour). by rewrite H. Qed.

Lemma run_load_failed env file flavour code s cmd :
  cli flavour env (boot file) = (Exit code, s) →
  run env file flavour cmd = (Exit code, s).
Proof. intros H. unfold run, main. msimpl. fold (cli flavour). by rewrite H. Qed.

Lemma run_build env file flavour obj s0 base app dev lock :
  cli flavour env (boot file) = (Ok obj, s0) →
  run env file flavour (Build base app dev lock) = build obj base app dev lock env s0.
Proof. intros H. unfold run, main. msimpl. fold (cli flavour). by rewrite H. Qed.

(** ** External calls *)

Lemma call_at_returns depth env s c v :
  sigints (respond env (effects s) c) = 0%nat →
  outcome (respond env (effects s) c) = inl v →
  call_at depth c env s = (Ok v, append_effects s [c]).
Proof.
  intros Hn Ho. destruct depth; cbn; msimpl; rewrite Hn, Ho; reflexivity.
Qed.

Lemma external_returning env s c :
  returning env → ∃ v, external c env s = (Ok v, append_effects s [c]).
Proof.
  intros Hq. destruct (Hq (effects s) c) as [Hn [v Ho]].
  exists v. by apply call_at_returns.
Qed.

(** Under Python's default handler a call either completes as the world
    decided or is cut short by [KeyboardInterrupt]; it is recorded in both
    cases and nothing else changes. *)
Lemma external_default env s c :
  sigint s = default_int_handler →
  external c env s =
    (match sigints (respond env (effects s) c), outcome (respond env (effects s) c) with
     | O, inl v => Ok v
     | O, inr e => Raise e
     | S _, _ => Raise KeyboardInterrupt
     end, append_effects s [c]).
Proof.
  intros Hd. unfold external.
  destruct (recursion_limit env); cbn; msimpl.
  all: destruct (sigints _); cbn; [destruct (outcome _); reflexivity|].
  all: unfold on_sigint, append_effects; msimpl; cbn; rewrite Hd; reflexivity.
Qed.

Lemma external_default_cases env s c :
  sigint s = default_int_handler →
  (∃ v, external c env s = (Ok v, append_effects s [c])) ∨
  (∃ e, external c env s = (Raise e, append_effects s [c])).
Proof.
  intros Hd. rewrite external_default by done.
  destruct (sigints _); [destruct (outcome _)|]; eauto.
Qed.

Lemma env_ok_returning v : returning (env_ok v).
Proof. intros h c. split; [reflexivity|]. eexists; reflexivity. Qed.

Lemma env_lock_fails_returning : returning env_lock_fails.
Proof. intros h c. split; [reflexivity|]. eexists; reflexivity. Qed.

Ltac unfold_calls :=
  unfold subprocess_call, cookiecutter, docker.from_env, docker.images_build,
    DockerCompose.create_containers, DockerCompose.start_containers,
    DockerCompose.stop_containers, DockerCompose.destroy_containers.

(** Performs the next external call of the goal in a returning world. *)
Ltac step_returning Hq :=
  match goal with
  | |- context [external ?c ?env ?s] =>
      let v := fresh "v" in
      destruct (external_returning env s c Hq) as [v ->]; cbv beta iota
  end.

(** Performs the next external call of the goal in any world, as long as the
    default SIGINT handler is in place: the call returns or raises. *)
Ltac step_default :=
  match goal with
  | |- context [external ?c ?env ?s] =>
      let v := fresh "v" in
      let e := fresh "e" in
      destruct (external_default_cases env s c ltac:(cbn; assumption))
        as [[v ->] | [e ->]]; cbv beta iota
  end.

(** ** [build] in a returning world and in any world *)

Lemma build_returning env obj s fl cwd base app dev lock :
  returning env →
  obj !! "flavour" = Some fl → obj !! "cwd" = Some cwd →
  ∃ l, build obj base app dev lock env s = (Ok tt, append_effects s l) ∧
       external_calls l = build_steps base app dev lock cwd.
Proof.
  intros Hq Hfl Hcwd. unfold build, getattr. rewrite Hfl, Hcwd.
  destruct base, app, dev, lock; unfold_calls; msimpl.
  all: repeat step_returning Hq.
  all: rewrite ?append_effects_app; cbn [app].
  all: eexists; split; [reflexivity|reflexivity].
Qed.

(** In any world the external calls of a build are an initial part of the
    fixed sequence, and the whole of it when the command returns. *)
Lemma build_any_world env obj s fl cwd base app dev lock :
  sigint s = default_int_handler →
  obj !! "flavour" = Some fl → obj !! "cwd" = Some cwd →
  ∃ r l, build obj base app dev lock env s = (r, append_effects s l) ∧
         external_calls l `prefix_of` build_steps base app dev lock cwd ∧
         (r = Ok tt → external_calls l = build_steps base app dev lock cwd) ∧
         (∀ code, r ≠ Exit code).
Proof.
  intros Hd Hfl Hcwd. unfold build, getattr. rewrite Hfl, Hcwd.
  destruct base, app, dev, lock; unfold_calls; msimpl.
  all: repeat step_default.
  all: rewrite ?append_effects_app; cbn [app].
  all: do 2 eexists; split; [reflexivity|].
  all: split; [cbn; by eexists|split; [try done|done]].
Qed.

(** What a build does after a successful load, in any world and in a
    returning one. *)
Lemma run_build_spec env file flavour obj s0 cwd base app dev lock :
  cli flavour env (boot file) = (Ok obj, s0) →
  obj !! "cwd" = Some cwd →
  external_calls (effects (snd (run env file flavour (Build base app dev lock))))
    `prefix_of` build_steps base app dev lock cwd ∧
  (returning env →
   ∃ s, run env file flavour (Build base app dev lock) = (Ok tt, s) ∧
        external_calls (effects s) = build_steps base app dev lock cwd ∧
        dotfile s = file).
Proof.
  intros Hcli Hcwd. rewrite (run_build _ _ _ _ _ _ _ _ _ Hcli).
  pose proof (cli_ok_inv _ _ _ _ _ Hcli) as Hl.
  destruct (loaded_quiet _ _ _ Hl) as (Hfile & Hsig & Hnone).
  destruct Hl as [_ _ [fl Hfl] _ _ _].
  split.
  - destruct (build_any_world env obj s0 fl cwd base app dev lock Hsig Hfl Hcwd)
      as (r & l & -> & Hp & _). cbn.
    unfold external_calls in *. by rewrite List.filter_app, Hnone.
  - intros Hq.
    destruct (build_returning env obj s0 fl cwd base app dev lock Hq Hfl Hcwd)
      as (l & -> & Hl).
    eexists. split; [reflexivity|]. cbn.
    unfold external_calls in *. by rewrite List.filter_app, Hnone, Hl.
Qed.

Lemma build_steps_cwd base app dev lock cwd e :
  e ∈ build_steps base app dev lock cwd → call_cwd e = Some cwd.
Proof.
  destruct base, app, dev, lock; cbn.
  all: rewrite ?elem_of_cons, elem_of_nil.
  all: intros H; repeat (destruct H as [->|H]; [reflexivity|]); by destruct H.
Qed.

(** ** Running [init] again *)

(** The first [init] in a fresh directory writes the record. *)
Example init_fresh_directory :
  run (env_ok (PStr "my-site")) None (PStr "RDM") Init =
    (Ok tt,
     {| dotfile := Some cfg_initialised;
        effects := [Print "Initializing RDM application..."; Cookiecutter (PStr "RDM")];
        sigint := default_int_handler |}).
Proof. vm_compute. reflexivity. Qed.

(** C1 (defect of the code). When [init] runs in a directory whose [.invenio]
    already holds the [cli] section and the template tool returns, the
    command does not fail: it opens the file for writing before it looks at
    the sections, logs that it cannot override, and returns normally (exit
    status 0) leaving the file empty. The persisted record is lost. *)
Theorem init_again_truncates_config env cfg P flavour :
  configparser.getitem cfg "cli" "flavour" = Some P →
  truthy flavour = false ∨ flavour = PStr P →
  returning env →
  ∃ s, run env (Some cfg) flavour Init = (Ok tt, s) ∧
       exit_status (fst (run env (Some cfg) flavour Init)) = 0 ∧
       dotfile s = Some configparser.new ∧
       dotfile s ≠ Some cfg ∧
       last (effects s) =
         Some (LoggingError
           "An invenio-cli configuration file (.invenio)already exists. Cannot override").
Proof.
  intros Hk Hm Hq.
  pose proof (load_present flavour env (boot (Some cfg)) cfg P eq_refl Hk Hm) as Hload.
  destruct (cli_ok_inv _ _ _ _ _ Hload) as [_ _ _ _ Hconfig _].
  assert (loaded_self cfg P !! "flavour" = Some (PStr P)) as Hfl.
  { unfold loaded_self. destruct (configparser.getitem cfg "cli" "cwd");
      by simplify_map_eq. }
  cbn in Hconfig.
  assert (∃ s, run env (Some cfg) flavour Init = (Ok tt, s) ∧
               dotfile s = Some configparser.new ∧
               last (effects s) =
                 Some (LoggingError
                   "An invenio-cli configuration file (.invenio)already exists. Cannot override"))
    as (s & Hrun & Hfile & Hlast).
  { unfold run, main, cli. msimpl. rewrite Hload.
    unfold init, getattr. rewrite Hfl, Hconfig. unfold_calls. msimpl.
    step_returning Hq. cbn [dotfile append_effects].
    rewrite read_truncated_file.
    rewrite bool_decide_eq_true_2 by (by eapply getitem_section).
    eexists. split; [reflexivity|]. split; [reflexivity|].
    cbn [effects append_effects]. by rewrite last_snoc. }
  exists s. rewrite Hrun. repeat split; try done.
  rewrite Hfile. intros [= <-]. by rewrite getitem_new in Hk.
Qed.

Lemma init_again_truncates_config_witness :
  configparser.getitem cfg_initialised "cli" "flavour" = Some "RDM" ∧
  ∃ s, run (env_ok (PStr "my-site")) (Some cfg_initialised) PNone Init = (Ok tt, s) ∧
       exit_status (fst (run (env_ok (PStr "my-site")) (Some cfg_initialised) PNone Init)) = 0 ∧
       dotfile s = Some configparser.new ∧
       dotfile s ≠ Some cfg_initialised ∧
       last (effects s) =
         Some (LoggingError
           "An invenio-cli configuration file (.invenio)already exists. Cannot override").
Proof.
  split; [vm_compute; reflexivity|].
  apply (init_again_truncates_config (env_ok (PStr "my-site")) cfg_initialised "RDM" PNone).
  - vm_compute; reflexivity.
  - left; reflexivity.
  - intros h c; split; [reflexivity|]. eexists; reflexivity.
Defined.

(** ** A failing step of [build] *)

(** C2, as stated, fails: the lock step exits with status 1, yet the bootstrap
    script and the container creation still run and the command returns
    normally. *)
Lemma build_continues_after_failed_lock :
  outcome (respond env_lock_fails
             [Print "Building RDM application..."; Print "Locking dependencies..."]
             (SubprocessCall ["pipenv"; "lock"] (PStr "my-site"))) = inl (PInt 1) ∧
  run env_lock_fails (Some cfg_initialised) PNone (Build false false true true) =
    (Ok tt,
     {| dotfile := Some cfg_initialised;
        effects :=
          [Print "Building RDM application...";
           Print "Locking dependencies...";
           SubprocessCall ["pipenv"; "lock"] (PStr "my-site");
           Print "Bootstrapping development server...";
           SubprocessCall ["/bin/bash"; "scripts/bootstrap"; "--dev"] (PStr "my-site");
           Print "Creating development services...";
           CreateContainers true (PStr "my-site")];
        sigint := default_int_handler |}).
Proof. split; vm_compute; reflexivity. Qed.

(** C2 (amended). [build] never looks at an exit code. In any world the
    external calls made are an initial part of the sequence chosen by the
    flags, so that only an exception ends a build early; and whatever the
    calls return, as long as none raises, every step of the sequence is
    executed, in order, and the command returns normally, the file
    untouched. Nothing is undone in either case. *)
Theorem build_discards_exit_codes env file flavour obj s0 cwd base app dev lock :
  cli flavour env (boot file) = (Ok obj, s0) →
  obj !! "cwd" = Some cwd →
  external_calls (effects (snd (run env file flavour (Build base app dev lock))))
    `prefix_of` build_steps base app dev lock cwd ∧
  (returning env →
   ∃ s, run env file flavour (Build base app dev lock) = (Ok tt, s) ∧
        external_calls (effects s) = build_steps base app dev lock cwd ∧
        dotfile s = file).
Proof. apply run_build_spec. Qed.

Lemma build_discards_exit_codes_witness :
  cli PNone env_lock_fails (boot (Some cfg_initialised)) =
    (Ok (loaded_self cfg_initialised "RDM"), boot (Some cfg_initialised)) ∧
  loaded_self cfg_initialised "RDM" !! "cwd" = Some (PStr "my-site") ∧
  external_calls
    (effects (snd (run env_lock_fails (Some cfg_initialised) PNone
                     (Build false false true true))))
    `prefix_of` build_steps false false true true (PStr "my-site") ∧
  (returning env_lock_fails →
   ∃ s, run env_lock_fails (Some cfg_initialised) PNone (Build false false true true)
          = (Ok tt, s) ∧
        external_calls (effects s) = build_steps false false true true (PStr "my-site") ∧
        dotfile s = Some cfg_initialised).
Proof.
  split; [vm_compute; reflexivity|]. split; [vm_compute; reflexivity|].
  apply (build_discards_exit_codes env_lock_fails (Some cfg_initialised) PNone
           (loaded_self cfg_initialised "RDM") (boot (Some cfg_initialised))
           (PStr "my-site") false false true true).
  - vm_compute; reflexivity.
  - vm_compute; reflexivity.
Defined.

(** ** Commands that read [name] *)

(** C3. Whatever the flags, [setup], [server] and [destroy] read the
    attribute [name], which [InvenioCli.__init__] never assigns (nor does it
    assign [project_name]): after a successful load the invocation ends with
    [AttributeError] in the very state in which loading left the process, so
    no external call was started, let alone completed. *)
Theorem setup_server_destroy_raise_attribute_error env file flavour obj s :
  cli flavour env (boot file) = (Ok obj, s) →
  obj !! "name" = None ∧ obj !! "project_name" = None ∧
  external_calls (effects s) = [] ∧
  ∀ dev bg start,
    run env file flavour (Setup dev) = (Raise (AttributeError "name"), s) ∧
    run env file flavour (Server dev bg start) = (Raise (AttributeError "name"), s) ∧
    run env file flavour (Destroy dev) = (Raise (AttributeError "name"), s).
Proof.
  intros Hcli. pose proof (cli_ok_inv _ _ _ _ _ Hcli) as Hl.
  destruct (loaded_quiet _ _ _ Hl) as (_ & _ & Hnone).
  destruct Hl as [Hname Hproj _ _ _ _].
  repeat split; try done.
  all: unfold run, main; msimpl; fold (cli flavour); rewrite Hcli.
  all: unfold setup, server, destroy, getattr; rewrite Hname; reflexivity.
Qed.

Lemma setup_server_destroy_raise_attribute_error_witness :
  cli PNone (env_ok (PInt 0)) (boot (Some cfg_initialised)) =
    (Ok (loaded_self cfg_initialised "RDM"), boot (Some cfg_initialised)) ∧
  loaded_self cfg_initialised "RDM" !! "name" = None ∧
  loaded_self cfg_initialised "RDM" !! "project_name" = None ∧
  external_calls (effects (boot (Some cfg_initialised))) = [] ∧
  ∀ dev bg start,
    run (env_ok (PInt 0)) (Some cfg_initialised) PNone (Setup dev) =
      (Raise (AttributeError "name"), boot (Some cfg_initialised)) ∧
    run (env_ok (PInt 0)) (Some cfg_initialised) PNone (Server dev bg start) =
      (Raise (AttributeError "name"), boot (Some cfg_initialised)) ∧
    run (env_ok (PInt 0)) (Some cfg_initialised) PNone (Destroy dev) =
      (Raise (AttributeError "name"), boot (Some cfg_initialised)).
Proof.
  split; [vm_compute; reflexivity|].
  apply (setup_server_destroy_raise_attribute_error (env_ok (PInt 0))
           (Some cfg_initialised) PNone).
  vm_compute; reflexivity.
Defined.

(** ** Flavour mismatch *)

(** C4. When the file holds flavour [P] and the command line supplies a
    different flavour [F] (a supplied flavour is a choice of the option, hence
    not the empty string), every command ends with exit status 1 while the
    configuration is loaded: the only effect is the error message, no
    external call is made, the file and the SIGINT handler are untouched. *)
Theorem flavour_mismatch_is_fatal env cfg P F cmd :
  configparser.getitem cfg "cli" "flavour" = Some P →
  F ≠ "" → F ≠ P →
  run env (Some cfg) (PStr F) cmd =
    (Exit 1,
     {| dotfile := Some cfg;
        effects := [LoggingError "Config flavour in .invenio differs form the specified"];
        sigint := default_int_handler |}) ∧
  exit_status (fst (run env (Some cfg) (PStr F) cmd)) ≠ 0 ∧
  external_calls (effects (snd (run env (Some cfg) (PStr F) cmd))) = [].
Proof.
  intros Hk Hne Hdiff.
  assert (run env (Some cfg) (PStr F) cmd =
    (Exit 1,
     {| dotfile := Some cfg;
        effects := [LoggingError "Config flavour in .invenio differs form the specified"];
        sigint := default_int_handler |})) as Hrun.
  { unfold run, main, cli. msimpl.
    rewrite (load_mismatch (PStr F) env (boot (Some cfg)) cfg P); try done.
    - cbn. by rewrite bool_decide_eq_true_2.
    - congruence. }
  rewrite Hrun. cbn. done.
Qed.

Lemma flavour_mismatch_is_fatal_witness :
  configparser.getitem cfg_initialised "cli" "flavour" = Some "RDM" ∧
  "rdm" ≠ "" ∧ "rdm" ≠ "RDM" ∧
  run (env_ok (PInt 0)) (Some cfg_initialised) (PStr "rdm") (Build true false false true) =
    (Exit 1,
     {| dotfile := Some cfg_initialised;
        effects := [LoggingError "Config flavour in .invenio differs form the specified"];
        sigint := default_int_handler |}) ∧
  exit_status (fst (run (env_ok (PInt 0)) (Some cfg_initialised) (PStr "rdm")
                      (Build true false false true))) ≠ 0 ∧
  external_calls (effects (snd (run (env_ok (PInt 0)) (Some cfg_initialised) (PStr "rdm")
                                  (Build true false false true)))) = [].
Proof.
  split; [vm_compute; reflexivity|].
  split; [discriminate|]. split; [discriminate|].
  apply (flavour_mismatch_is_fatal (env_ok (PInt 0)) cfg_initialised "RDM" "rdm").
  - vm_compute; reflexivity.
  - discriminate.
  - discriminate.
Defined.

(** ** Dev mode together with base or app *)

(** C5, as stated, fails: [build --dev --base] returns normally after the
    three external calls of a dev build. *)
Lemma build_dev_base_is_accepted :
  run (env_ok (PInt 0)) (Some cfg_initialised) PNone (Build true false true true) =
    (Ok tt,
     {| dotfile := Some cfg_initialised;
        effects :=
          [Print "Building RDM application...";
           Print "Locking dependencies...";
           SubprocessCall ["pipenv"; "lock"] (PStr "my-site");
           Print "Bootstrapping development server...";
           SubprocessCall ["/bin/bash"; "scripts/bootstrap"; "--dev"] (PStr "my-site");
           Print "Creating development services...";
           CreateContainers true (PStr "my-site")];
        sigint := default_int_handler |}) ∧
  length (external_calls (effects (snd
    (run (env_ok (PInt 0)) (Some cfg_initialised) PNone (Build true false true true)))))
  = 3%nat.
Proof. split; vm_compute; reflexivity. Qed.

(** C5 (amended). In dev mode the flags [base] and [app] are not read: the
    run is the one of a dev build without them, in every world; when the
    calls return it performs the dev sequence and returns normally. *)
Theorem build_dev_ignores_base_and_app env file flavour obj s0 cwd base app lock :
  cli flavour env (boot file) = (Ok obj, s0) →
  obj !! "cwd" = Some cwd →
  run env file flavour (Build base app true lock) =
    run env file flavour (Build false false true lock) ∧
  (returning env →
   ∃ s, run env file flavour (Build base app true lock) = (Ok tt, s) ∧
        external_calls (effects s) =
          ((if lock then [SubprocessCall ["pipenv"; "lock"] cwd] else []) ++
           [SubprocessCall ["/bin/bash"; "scripts/bootstrap"; "--dev"] cwd;
            CreateContainers true cwd])%list).
Proof.
  intros Hcli Hcwd. split; [reflexivity|].
  intros Hq.
  destruct (run_build_spec env file flavour obj s0 cwd base app true lock Hcli Hcwd)
    as [_ Hret].
  destruct (Hret Hq) as (s & Hrun & Hcalls & _).
  exists s. split; [done|]. rewrite Hcalls. reflexivity.
Qed.

Lemma build_dev_ignores_base_and_app_witness :
  cli PNone (env_ok (PInt 0)) (boot (Some cfg_initialised)) =
    (Ok (loaded_self cfg_initialised "RDM"), boot (Some cfg_initialised)) ∧
  loaded_self cfg_initialised "RDM" !! "cwd" = Some (PStr "my-site") ∧
  run (env_ok (PInt 0)) (Some cfg_initialised) PNone (Build true false true true) =
    run (env_ok (PInt 0)) (Some cfg_initialised) PNone (Build false false true true) ∧
  (returning (env_ok (PInt 0)) →
   ∃ s, run (env_ok (PInt 0)) (Some cfg_initialised) PNone (Build true false true true)
          = (Ok tt, s) ∧
        external_calls (effects s) =
          ([SubprocessCall ["pipenv"; "lock"] (PStr "my-site")] ++
           [SubprocessCall ["/bin/bash"; "scripts/bootstrap"; "--dev"] (PStr "my-site");
            CreateContainers true (PStr "my-site")])%list).
Proof.
  split; [vm_compute; reflexivity|]. split; [vm_compute; reflexivity|].
  apply (build_dev_ignores_base_and_app (env_ok (PInt 0)) (Some cfg_initialised) PNone
           (loaded_self cfg_initialised "RDM") (boot (Some cfg_initialised))
           (PStr "my-site") true false true).
  - vm_compute; reflexivity.
  - vm_compute; reflexivity.
Defined.

(** ** [build --prod --base --app --no-lock] *)

(** C6. When the calls return, [build --prod --base --app --no-lock] makes
    exactly three external calls, in this order: the build of the base image,
    the build of the app image, the creation of the full (non-dev)
    containers; [pipenv lock] is not run. *)
Theorem build_prod_base_app_no_lock env file flavour obj s0 cwd :
  cli flavour env (boot file) = (Ok obj, s0) →
  obj !! "cwd" = Some cwd →
  returning env →
  ∃ s, run env file flavour (Build true true false false) = (Ok tt, s) ∧
       external_calls (effects s) =
         [ImagesBuild cwd "Dockerfile.base" (py_str cwd +:+ "-base:latest");
          ImagesBuild cwd "Dockerfile" (py_str cwd +:+ ":latest");
          CreateContainers false cwd] ∧
       length (external_calls (effects s)) = 3%nat ∧
       ∀ args d, SubprocessCall args d ∉ effects s.
Proof.
  intros Hcli Hcwd Hq.
  destruct (run_build_spec env file flavour obj s0 cwd true true false false Hcli Hcwd)
    as [_ Hret].
  destruct (Hret Hq) as (s & Hrun & Hcalls & _).
  exists s. cbn in Hcalls. repeat split; try done.
  - by rewrite Hcalls.
  - intros args d Hin.
    assert (SubprocessCall args d ∈ external_calls (effects s)) as Hin'.
    { apply list_elem_of_In, List.filter_In. split; [by apply list_elem_of_In|done]. }
    rewrite Hcalls, !elem_of_cons, elem_of_nil in Hin'.
    destruct Hin' as [?|[?|[?|[]]]]; discriminate.
Qed.

Lemma build_prod_base_app_no_lock_witness :
  cli PNone (env_ok (PInt 0)) (boot (Some cfg_initialised)) =
    (Ok (loaded_self cfg_initialised "RDM"), boot (Some cfg_initialised)) ∧
  loaded_self cfg_initialised "RDM" !! "cwd" = Some (PStr "my-site") ∧
  returning (env_ok (PInt 0)) ∧
  ∃ s, run (env_ok (PInt 0)) (Some cfg_initialised) PNone (Build true true false false)
         = (Ok tt, s) ∧
       external_calls (effects s) =
         [ImagesBuild (PStr "my-site") "Dockerfile.base" "my-site-base:latest";
          ImagesBuild (PStr "my-site") "Dockerfile" "my-site:latest";
          CreateContainers false (PStr "my-site")] ∧
       length (external_calls (effects s)) = 3%nat ∧
       ∀ args d, SubprocessCall args d ∉ effects s.
Proof.
  split; [vm_compute; reflexivity|]. split; [vm_compute; reflexivity|].
  split; [apply env_ok_returning|].
  apply (build_prod_base_app_no_lock (env_ok (PInt 0)) (Some cfg_initialised) PNone
           (loaded_self cfg_initialised "RDM") (boot (Some cfg_initialised))
           (PStr "my-site")).
  - vm_compute; reflexivity.
  - vm_compute; reflexivity.
  - apply env_ok_returning.
Defined.

(** ** [server] and the interrupt *)

(** C7 (defect of the code). Whatever the flags, the world and the signals
    it sends, a run of [server] never returns normally, never registers the
    SIGINT handler and never calls [stop_containers]: when loading succeeds
    the first statement raises [AttributeError] for [name], before
    [signal.signal]. The number of teardown calls is zero, not one. *)
Theorem server_never_stops_containers env file flavour dev bg start :
  fst (run env file flavour (Server dev bg start)) ≠ Ok tt ∧
  sigint (snd (run env file flavour (Server dev bg start))) = default_int_handler ∧
  List.filter is_stop (effects (snd (run env file flavour (Server dev bg start)))) = [] ∧
  external_calls (effects (snd (run env file flavour (Server dev bg start)))) = [].
Proof.
  destruct (cli_cases flavour env (boot file)) as [(obj & s & Hcli & Hl)|[msg Hcli]].
  - rewrite (run_after_load _ _ _ _ _ _ Hcli). cbn [invoke].
    destruct (loaded_quiet _ _ _ Hl) as (_ & Hsig & Hnone).
    destruct Hl as [Hname _ _ _ _ Hs].
    unfold server, getattr. rewrite Hname. msimpl. cbn [fst snd].
    repeat split; try done.
    rewrite Hs. cbn. destruct file as [cfg|]; cbn; [|done].
    unfold loaded_log. by destruct (configparser.getitem cfg "cli" "cwd").
  - rewrite (run_load_failed _ _ _ _ _ _ Hcli). cbn. done.
Qed.

(** The failing input of C7: [server --start --dev] in the foreground, in an
    initialised project, with two interrupts on their way. *)
Example server_start_dev_interrupted :
  run env_two_interrupts (Some cfg_initialised) PNone (Server true false true) =
    (Raise (AttributeError "name"), boot (Some cfg_initialised)).
Proof. vm_compute. reflexivity. Qed.

(** The handler itself has no guard against re-entry: were it registered for
    an object that has [project_name], the two interrupts of
    [env_two_interrupts] would run the teardown twice. *)
Example signal_handler_runs_once_per_interrupt :
  let app_builder : gmap string pyval := {[ "project_name" := PStr "my-site" ]} in
  effects (snd (subprocess_call ["/bin/bash"; "scripts/server"] (PStr "my-site")
                  env_two_interrupts
                  {| dotfile := None; effects := [];
                     sigint := server_signal_handler app_builder |})) =
    [SubprocessCall ["/bin/bash"; "scripts/server"] (PStr "my-site");
     Print "SIGINT, stopping server..."; StopContainers (PStr "my-site");
     Print "SIGINT, stopping server..."; StopContainers (PStr "my-site")].
Proof. vm_compute. reflexivity. Qed.

(** ** Loading the configuration *)

(** C8, as stated, fails: a file that lacks [cwd] is loaded without error. *)
Lemma load_without_cwd_succeeds :
  configparser.getitem cfg_without_cwd "cli" "cwd" = None ∧
  cli PNone (env_ok (PInt 0)) (boot (Some cfg_without_cwd)) =
    (Ok ({[ "cwd" := PNone; "config" := PConfig cfg_without_cwd;
            "flavour" := PStr "RDM" ]} : gmap string pyval),
     {| dotfile := Some cfg_without_cwd;
        effects := [LoggingDebug "Working directory not configured"];
        sigint := default_int_handler |}) ∧
  exit_status (fst (cli PNone (env_ok (PInt 0)) (boot (Some cfg_without_cwd)))) = 0.
Proof. repeat split; vm_compute; reflexivity. Qed.

(** C8 (amended). Loading ends with exit status 1 when the file is absent
    and no flavour is supplied, and when the file exists but
    [config['cli']['flavour']] is missing. A missing [cwd] is not an error:
    loading then succeeds and leaves the working directory unset. *)
Theorem load_fails_only_without_flavour env flavour :
  (truthy flavour = false →
   cli flavour env (boot None) =
     (Exit 1, append_effects (boot None) [LoggingError "No flavour specified."])) ∧
  (∀ cfg, configparser.getitem cfg "cli" "flavour" = None →
   cli flavour env (boot (Some cfg)) =
     (Exit 1, append_effects (boot (Some cfg)) [LoggingError "Flavour not configured"])) ∧
  (∀ cfg P,
   configparser.getitem cfg "cli" "flavour" = Some P →
   configparser.getitem cfg "cli" "cwd" = None →
   truthy flavour = false ∨ flavour = PStr P →
   ∃ obj s, cli flavour env (boot (Some cfg)) = (Ok obj, s) ∧
            obj !! "cwd" = Some PNone ∧ obj !! "flavour" = Some (PStr P)).
Proof.
  repeat split.
  - intros Ht. by apply load_absent_without_flavour.
  - intros cfg Hk. by apply (load_without_flavour_key _ _ _ cfg).
  - intros cfg P Hk Hc Hm. do 2 eexists.
    split; [by apply (load_present _ _ _ cfg P)|].
    unfold loaded_self, self0. rewrite Hc. by simplify_map_eq.
Qed.

Lemma load_fails_only_without_flavour_witness :
  cli PNone (env_ok (PInt 0)) (boot None) =
    (Exit 1, append_effects (boot None) [LoggingError "No flavour specified."]) ∧
  cli PNone (env_ok (PInt 0)) (boot (Some configparser.new)) =
    (Exit 1, append_effects (boot (Some configparser.new))
               [LoggingError "Flavour not configured"]) ∧
  ∃ obj s, cli PNone (env_ok (PInt 0)) (boot (Some cfg_without_cwd)) = (Ok obj, s) ∧
           obj !! "cwd" = Some PNone ∧ obj !! "flavour" = Some (PStr "RDM").
Proof.
  destruct (load_fails_only_without_flavour (env_ok (PInt 0)) PNone) as (H1 & H2 & H3).
  split; [apply H1; reflexivity|].
  split; [apply H2; vm_compute; reflexivity|].
  apply H3.
  - vm_compute; reflexivity.
  - vm_compute; reflexivity.
  - left; reflexivity.
Defined.

(** ** [upgrade] *)

(** C9 (defect of the code). After a successful load [upgrade] makes no
    external call, and it reports nothing either: its first statement reads
    [name] and raises [AttributeError], so the line that says the operation
    is not supported is never printed. *)
Theorem upgrade_raises_before_reporting env file flavour obj s :
  cli flavour env (boot file) = (Ok obj, s) →
  run env file flavour Upgrade = (Raise (AttributeError "name"), s) ∧
  external_calls (effects s) = [] ∧
  (∀ line, Print line ∉ effects s).
Proof.
  intros Hcli. rewrite (run_after_load _ _ _ _ _ _ Hcli). cbn [invoke].
  pose proof (cli_ok_inv _ _ _ _ _ Hcli) as Hl.
  destruct (loaded_quiet _ _ _ Hl) as (_ & _ & Hnone).
  destruct Hl as [Hname _ _ _ _ Hs].
  unfold upgrade, getattr. rewrite Hname. msimpl.
  repeat split; try done.
  intros line. rewrite Hs. cbn. destruct file as [cfg|]; cbn.
  - unfold loaded_log. destruct (configparser.getitem cfg "cli" "cwd").
    + apply not_elem_of_nil.
    + rewrite elem_of_cons, elem_of_nil. intros [?|[]]; discriminate.
  - apply not_elem_of_nil.
Qed.

Lemma upgrade_raises_before_reporting_witness :
  cli PNone (env_ok (PInt 0)) (boot (Some cfg_initialised)) =
    (Ok (loaded_self cfg_initialised "RDM"), boot (Some cfg_initialised)) ∧
  run (env_ok (PInt 0)) (Some cfg_initialised) PNone Upgrade =
    (Raise (AttributeError "name"), boot (Some cfg_initialised)) ∧
  external_calls (effects (boot (Some cfg_initialised))) = [] ∧
  (∀ line, Print line ∉ effects (boot (Some cfg_initialised))).
Proof.
  split; [vm_compute; reflexivity|].
  apply (upgrade_raises_before_reporting (env_ok (PInt 0)) (Some cfg_initialised) PNone
           (loaded_self cfg_initialised "RDM") (boot (Some cfg_initialised))).
  vm_compute; reflexivity.
Defined.

(** ** A configuration without working directory *)

(** C10. A file that has [flavour] in its [cli] section and no [cwd] is
    loaded without error, [self.cwd] staying [None]; every external call of a
    build that follows is then given no working directory, and when the
    calls return the build runs its whole sequence and returns normally. *)
Theorem build_without_cwd env cfg P flavour :
  configparser.getitem cfg "cli" "flavour" = Some P →
  configparser.getitem cfg "cli" "cwd" = None →
  truthy flavour = false ∨ flavour = PStr P →
  (∃ obj s0, cli flavour env (boot (Some cfg)) = (Ok obj, s0) ∧
             obj !! "cwd" = Some PNone) ∧
  ∀ base app dev lock,
    (∀ e, e ∈ external_calls
                (effects (snd (run env (Some cfg) flavour (Build base app dev lock)))) →
          call_cwd e = Some PNone) ∧
    (returning env →
     ∃ s, run env (Some cfg) flavour (Build base app dev lock) = (Ok tt, s) ∧
          external_calls (effects s) = build_steps base app dev lock PNone).
Proof.
  intros Hk Hc Hm.
  pose proof (load_present flavour env (boot (Some cfg)) cfg P eq_refl Hk Hm) as Hload.
  assert (loaded_self cfg P !! "cwd" = Some PNone) as Hcwd.
  { unfold loaded_self, self0. rewrite Hc. by simplify_map_eq. }
  split; [by eauto|].
  intros base app dev lock.
  destruct (run_build_spec env (Some cfg) flavour _ _ PNone base app dev lock Hload Hcwd)
    as [Hp Hret].
  split.
  - intros e He. apply (build_steps_cwd base app dev lock).
    destruct Hp as [k ->]. apply elem_of_app. by left.
  - intros Hq. destruct (Hret Hq) as (s & Hrun & Hcalls & _). eauto.
Qed.

Lemma build_without_cwd_witness :
  configparser.getitem cfg_without_cwd "cli" "flavour" = Some "RDM" ∧
  configparser.getitem cfg_without_cwd "cli" "cwd" = None ∧
  (∃ obj s0, cli PNone (env_ok (PInt 0)) (boot (Some cfg_without_cwd)) = (Ok obj, s0) ∧
             obj !! "cwd" = Some PNone) ∧
  ∀ base app dev lock,
    (∀ e, e ∈ external_calls
                (effects (snd (run (env_ok (PInt 0)) (Some cfg_without_cwd) PNone
                                 (Build base app dev lock)))) →
          call_cwd e = Some PNone) ∧
    (returning (env_ok (PInt 0)) →
     ∃ s, run (env_ok (PInt 0)) (Some cfg_without_cwd) PNone (Build base app dev lock)
            = (Ok tt, s) ∧
          external_calls (effects s) = build_steps base app dev lock PNone).
Proof.
  split; [vm_compute; reflexivity|]. split; [vm_compute; reflexivity|].
  apply (build_without_cwd (env_ok (PInt 0)) cfg_without_cwd "RDM" PNone).
  - vm_compute; reflexivity.
  - vm_compute; reflexivity.
  - left; reflexivity.
Defined.

(** The default build in such a directory. *)
Example build_without_cwd_default_flags :
  run (env_ok (PInt 0)) (Some cfg_without_cwd) PNone (Build false false true true) =
    (Ok tt,
     {| dotfile := Some cfg_without_cwd;
        effects :=
          [LoggingDebug "Working directory not configured";
           Print "Building RDM application...";
           Print "Locking dependencies...";
           SubprocessCall ["pipenv"; "lock"] PNone;
           Print "Bootstrapping development server...";
           SubprocessCall ["/bin/bash"; "scripts/bootstrap"; "--dev"] PNone;
           Print "Creating development services...";
           CreateContainers true PNone];
        sigint := default_int_handler |}).
Proof. vm_compute. reflexivity. Qed.

(** * Further properties of the commands *)

(** ** [init] in any world *)




(** Closes the bookkeeping goals on the effect list of a finished run. *)
Ltac effects_done :=
  unfold external_calls; cbn [effects dotfile sigint append_effects];
  rewrite ?List.filter_app; cbn [List.filter is_lifecycle is_external_call];
  rewrite ?app_nil_r.

(** What [init] does to the process in any world, once loading succeeded:
    it calls the template tool once, registers nothing, and leaves the file
    as it was (the tool raised), empty, or holding a record for a directory
    that had no [cli] section. *)
Lemma init_any_world env obj s fl c :
  sigint s = default_int_handler →
  obj !! "flavour" = Some fl → obj !! "config" = Some (PConfig c) →
  ∃ r s', init obj env s = (r, s') ∧
    sigint s' = default_int_handler ∧
    List.filter is_lifecycle (effects s') = List.filter is_lifecycle (effects s) ∧
    external_calls (effects s') = (external_calls (effects s) ++ [Cookiecutter fl])%list ∧
    ((dotfile s' = dotfile s ∧ ∃ e, r = Raise e) ∨
     dotfile s' = Some configparser.new ∨
     (("cli" ∉ configparser.section_names c) ∧ r = Ok tt ∧
      ∃ d F c', fl = PStr F ∧ dotfile s' = Some c' ∧
                (configparser.set (configparser.set_section c "cli") "cli" "cwd" d
                   ≫= (λ c1, configparser.set c1 "cli" "flavour" F)) = Some c')).
Proof.
  intros Hd Hfl Hc. unfold init, getattr. rewrite Hfl, Hc. unfold_calls. msimpl.
  step_default.
  - cbn [dotfile append_effects]. rewrite read_truncated_file.
    destruct (bool_decide ("cli" ∈ configparser.section_names c)) eqn:Hin.
    + do 2 eexists. split; [reflexivity|]. effects_done. eauto 10.
    + apply bool_decide_eq_false in Hin.
      unfold config_setitem.
      destruct v as [|d| |]; msimpl.
      all: try (do 2 eexists; split; [reflexivity|]; effects_done; by eauto 10).
      destruct (configparser.set (configparser.set_section c "cli") "cli" "cwd" d)
        as [c1|] eqn:Hset1; msimpl.
      2: { do 2 eexists. split; [reflexivity|]. effects_done. eauto 10. }
      destruct fl as [|F| |]; msimpl.
      all: try (do 2 eexists; split; [reflexivity|]; effects_done; by eauto 10).
      destruct (configparser.set c1 "cli" "flavour" F) as [c2|] eqn:Hset2; msimpl.
      2: { do 2 eexists. split; [reflexivity|]. effects_done. eauto 10. }
      do 2 eexists. split; [reflexivity|]. effects_done.
      repeat split; try done.
      right. right. split; [done|]. split; [done|].
      exists d, F, c2. rewrite Hset1. cbn. eauto.
  - do 2 eexists. split; [reflexivity|]. effects_done. eauto 10.
Qed.



Lemma template_raises_example : template_raises env_template_fails.
Proof. intros h fl. eexists. reflexivity. Qed.

(** Loading succeeds on an existing file only if it holds a flavour. *)
Lemma loaded_file_has_flavour flavour env cfg obj s :
  cli flavour env (boot (Some cfg)) = (Ok obj, s) →
  ∃ P, configparser.getitem cfg "cli" "flavour" = Some P ∧
       (truthy flavour = false ∨ flavour = PStr P).
Proof.
  intros Hcli. unfold cli in Hcli.
  destruct (configparser.getitem cfg "cli" "flavour") as [P|] eqn:Hk.
  - exists P. split; [done|].
    destruct (truthy flavour) eqn:Ht; [|by left].
    destruct (decide (flavour = PStr P)) as [->|Hne]; [by right|].
    rewrite (load_mismatch _ _ _ cfg P) in Hcli by done. discriminate.
  - rewrite (load_without_flavour_key _ _ _ cfg) in Hcli by done. discriminate.
Qed.

(** ** The first [init] *)






(** ** [init] and the file *)

(** X3. When the template tool fails, [init] fails too and leaves
    [.invenio] as it found it: present or absent, nothing is written. *)
Theorem init_failed_template_keeps_file env file flavour :
  template_raises env →
  dotfile (snd (run env file flavour Init)) = file ∧
  fst (run env file flavour Init) ≠ Ok tt ∧
  exit_status (fst (run env file flavour Init)) = 1.
Proof.
  intros Hr.
  destruct (cli_cases flavour env (boot file)) as [(obj & s & Hcli & Hl)|[msg Hcli]].
  - rewrite (run_after_load _ _ _ _ _ _ Hcli). cbn [invoke].
    destruct (loaded_quiet _ _ _ Hl) as (Hfile & Hsig & _).
    destruct Hl as [_ _ [fl Hfl] _ _ _].
    unfold init, getattr. rewrite Hfl. unfold_calls. msimpl.
    rewrite external_default by done.
    destruct (Hr (effects (append_effects s
                [Print ("Initializing " +:+ py_str fl +:+ " application...")])) fl)
      as [e He].
    destruct (sigints _); [rewrite He|]; cbn; done.
  - rewrite (run_load_failed _ _ _ _ _ _ Hcli). cbn. done.
Qed.

Lemma init_failed_template_keeps_file_witness :
  template_raises env_template_fails ∧
  dotfile (snd (run env_template_fails (Some cfg_initialised) PNone Init))
    = Some cfg_initialised ∧
  fst (run env_template_fails (Some cfg_initialised) PNone Init) ≠ Ok tt ∧
  exit_status (fst (run env_template_fails (Some cfg_initialised) PNone Init)) = 1.
Proof.
  split; [apply template_raises_example|].
  apply (init_failed_template_keeps_file env_template_fails (Some cfg_initialised) PNone).
  apply template_raises_example.
Defined.

(** X4. [init] never puts a record in a file that exists: whatever the
    world, the flavour and the content, after the run the file is as it was
    or it is empty. *)
Theorem init_never_replaces_record env cfg flavour :
  dotfile (snd (run env (Some cfg) flavour Init)) = Some cfg ∨
  dotfile (snd (run env (Some cfg) flavour Init)) = Some configparser.new.
Proof.
  destruct (cli_cases flavour env (boot (Some cfg)))
    as [(obj & s & Hcli & Hl)|[msg Hcli]].
  - rewrite (run_after_load _ _ _ _ _ _ Hcli). cbn [invoke].
    destruct (loaded_file_has_flavour _ _ _ _ _ Hcli) as (P & Hk & _).
    destruct (loaded_quiet _ _ _ Hl) as (Hfile & Hsig & _).
    destruct Hl as [_ _ [fl Hfl] _ Hc _]. cbn in Hc.
    destruct (init_any_world env obj s fl cfg Hsig Hfl Hc)
      as (r & s' & -> & _ & _ & _ & [[Hsame _]|[Hnew|[Hnot _]]]); cbn [snd].
    + left. by rewrite Hsame.
    + by right.
    + destruct Hnot. by eapply getitem_section.
  - rewrite (run_load_failed _ _ _ _ _ _ Hcli). cbn. by left.
Qed.

(** ** What no run does *)

Lemma build_no_lifecycle env obj s fl cwd base app dev lock :
  sigint s = default_int_handler →
  obj !! "flavour" = Some fl → obj !! "cwd" = Some cwd →
  ∃ r l, build obj base app dev lock env s = (r, append_effects s l) ∧
         List.filter is_lifecycle l = [].
Proof.
  intros Hd Hfl Hcwd. unfold build, getattr. rewrite Hfl, Hcwd.
  destruct base, app, dev, lock; unfold_calls; msimpl.
  all: repeat step_default.
  all: rewrite ?append_effects_app; cbn [app].
  all: do 2 eexists; split; reflexivity.
Qed.

(** X5. Only [init] writes [.invenio]: after a run of any other command, in
    any world and whatever its outcome, the file is what it was. *)
Theorem only_init_writes_file env file flavour cmd :
  cmd ≠ Init →
  dotfile (snd (run env file flavour cmd)) = file.
Proof.
  intros Hcmd.
  destruct (cli_cases flavour env (boot file)) as [(obj & s & Hcli & Hl)|[msg Hcli]].
  - rewrite (run_after_load _ _ _ _ _ _ Hcli).
    destruct (loaded_quiet _ _ _ Hl) as (Hfile & Hsig & _).
    destruct Hl as [Hname _ [fl Hfl] Hcwd _ _].
    destruct cmd as [|base app dev lock|dev|dev bg start|dev|]; cbn [invoke]; [done|..].
    + destruct (build_any_world env obj s fl _ base app dev lock Hsig Hfl Hcwd)
        as (r & l & -> & _). done.
    + unfold setup, getattr. by rewrite Hname.
    + unfold server, getattr. by rewrite Hname.
    + unfold destroy, getattr. by rewrite Hname.
    + unfold upgrade, getattr. by rewrite Hname.
  - rewrite (run_load_failed _ _ _ _ _ _ Hcli). done.
Qed.

Lemma only_init_writes_file_witness :
  Build true true false true ≠ Init ∧
  dotfile (snd (run env_lock_fails (Some cfg_initialised) PNone (Build true true false true)))
    = Some cfg_initialised.
Proof.
  split; [discriminate|].
  apply (only_init_writes_file env_lock_fails (Some cfg_initialised) PNone
           (Build true true false true)).
  discriminate.
Defined.

(** X6. No run of any command, in any world, registers a SIGINT handler or
    starts, stops or removes containers: when it ends the default handler is
    still in place and the effects hold no such call. *)
Theorem no_run_drives_containers env file flavour cmd :
  sigint (snd (run env file flavour cmd)) = default_int_handler ∧
  List.filter is_lifecycle (effects (snd (run env file flavour cmd))) = [].
Proof.
  destruct (cli_cases flavour env (boot file)) as [(obj & s & Hcli & Hl)|[msg Hcli]].
  - rewrite (run_after_load _ _ _ _ _ _ Hcli).
    destruct (loaded_quiet _ _ _ Hl) as (Hfile & Hsig & _).
    assert (List.filter is_lifecycle (effects s) = []) as Hnone.
    { destruct Hl as [_ _ _ _ _ ->]. cbn. destruct file as [cfg|]; cbn; [|done].
      unfold loaded_log. by destruct (configparser.getitem cfg "cli" "cwd"). }
    destruct Hl as [Hname _ [fl Hfl] Hcwd Hc _].
    destruct cmd as [|base app dev lock|dev|dev bg start|dev|]; cbn [invoke].
    + destruct (init_any_world env obj s fl _ Hsig Hfl Hc)
        as (r & s' & -> & Hsig' & Hlife & _). cbn [snd]. by rewrite Hlife.
    + destruct (build_no_lifecycle env obj s fl _ base app dev lock Hsig Hfl Hcwd)
        as (r & l & -> & Hl). cbn. by rewrite List.filter_app, Hnone, Hl.
    + unfold setup, getattr. by rewrite Hname.
    + unfold server, getattr. by rewrite Hname.
    + unfold destroy, getattr. by rewrite Hname.
    + unfold upgrade, getattr. by rewrite Hname.
  - rewrite (run_load_failed _ _ _ _ _ _ Hcli). done.
Qed.

(** ** The supplied flavour *)

(** X7. Once the file holds a flavour, supplying that same flavour (or an
    empty one) on the command line changes nothing: the run is the run
    without [--flavour]. *)
Theorem matching_flavour_is_redundant env cfg P flavour cmd :
  configparser.getitem cfg "cli" "flavour" = Some P →
  truthy flavour = false ∨ flavour = PStr P →
  run env (Some cfg) flavour cmd = run env (Some cfg) PNone cmd.
Proof.
  intros Hk Hm.
  pose proof (load_present flavour env (boot (Some cfg)) cfg P eq_refl Hk Hm) as H1.
  pose proof (load_present PNone env (boot (Some cfg)) cfg P eq_refl Hk
                (or_introl eq_refl)) as H2.
  by rewrite (run_after_load _ _ _ _ _ _ H1), (run_after_load _ _ _ _ _ _ H2).
Qed.

Lemma matching_flavour_is_redundant_witness :
  configparser.getitem cfg_initialised "cli" "flavour" = Some "RDM" ∧
  run (env_ok (PInt 0)) (Some cfg_initialised) (PStr "RDM") (Build false false true true) =
    run (env_ok (PInt 0)) (Some cfg_initialised) PNone (Build false false true true).
Proof.
  split; [vm_compute; reflexivity|].
  apply (matching_flavour_is_redundant (env_ok (PInt 0)) cfg_initialised "RDM" (PStr "RDM")).
  - vm_compute; reflexivity.
  - right; reflexivity.
Defined.

(** X8. Loading succeeds exactly when the pair of file and supplied flavour
    is [loadable]; otherwise every command, [init] included, ends with exit
    status 1 after one logged error and nothing else. *)
Theorem load_succeeds_iff_loadable env file flavour :
  (loadable file flavour ↔ ∃ obj s, cli flavour env (boot file) = (Ok obj, s)) ∧
  (¬ loadable file flavour →
   ∀ cmd, ∃ msg,
     run env file flavour cmd =
       (Exit 1, {| dotfile := file; effects := [LoggingError msg];
                   sigint := default_int_handler |})).
Proof.
  assert (loadable file flavour → ∃ obj s, cli flavour env (boot file) = (Ok obj, s))
    as Hto.
  { destruct file as [cfg|]; cbn.
    - intros (P & Hk & Hm). do 2 eexists. by apply (load_present _ _ _ cfg P).
    - intros Ht. do 2 eexists. by apply load_absent_with_flavour. }
  assert ((∃ obj s, cli flavour env (boot file) = (Ok obj, s)) → loadable file flavour)
    as Hfrom.
  { intros (obj & s & Hcli). destruct file as [cfg|]; cbn.
    - by eapply loaded_file_has_flavour.
    - destruct (truthy flavour) eqn:Ht; [done|].
      unfold cli in Hcli. rewrite load_absent_without_flavour in Hcli by done.
      discriminate. }
  split; [by split|].
  intros Hnot cmd.
  destruct (cli_cases flavour env (boot file)) as [(obj & s & Hcli & _)|[msg Hcli]].
  - destruct Hnot. apply Hfrom. eauto.
  - exists msg. by rewrite (run_load_failed _ _ _ _ _ _ Hcli).
Qed.

(** ** After a second [init] *)

Lemma init_again_state env cfg P flavour :
  configparser.getitem cfg "cli" "flavour" = Some P →
  truthy flavour = false ∨ flavour = PStr P →
  returning env →
  dotfile (snd (run env (Some cfg) flavour Init)) = Some configparser.new.
Proof.
  intros Hk Hm Hq.
  pose proof (load_present flavour env (boot (Some cfg)) cfg P eq_refl Hk Hm) as Hload.
  destruct (cli_ok_inv _ _ _ _ _ Hload) as [_ _ [fl Hfl] _ Hconfig _].
  cbn in Hconfig. rewrite (run_after_load _ _ _ _ _ _ Hload). cbn [invoke].
  unfold init, getattr. rewrite Hfl, Hconfig. unfold_calls. msimpl.
  step_returning Hq. cbn [dotfile append_effects].
  rewrite read_truncated_file.
  rewrite bool_decide_eq_true_2 by (by eapply getitem_section).
  reflexivity.
Qed.

(** X9. A project is unusable after [init] ran a second time in it with the
    template tool returning: every later command, with any flavour and in
    any world, stops while loading with exit status 1 and the error
    [Flavour not configured], and the file stays empty. *)
Theorem commands_fail_after_second_init env env' cfg P flavour flavour' cmd :
  configparser.getitem cfg "cli" "flavour" = Some P →
  truthy flavour = false ∨ flavour = PStr P →
  returning env →
  run env' (dotfile (snd (run env (Some cfg) flavour Init))) flavour' cmd =
    (Exit 1,
     {| dotfile := Some configparser.new;
        effects := [LoggingError "Flavour not configured"];
        sigint := default_int_handler |}).
Proof.
  intros Hk Hm Hq. rewrite (init_again_state env cfg P flavour Hk Hm Hq).
  apply run_load_failed. unfold cli.
  by rewrite (load_without_flavour_key flavour' env' (boot (Some configparser.new))
                configparser.new eq_refl (getitem_new "cli" "flavour")).
Qed.

Lemma commands_fail_after_second_init_witness :
  configparser.getitem cfg_initialised "cli" "flavour" = Some "RDM" ∧
  returning (env_ok (PStr "my-site-2")) ∧
  run (env_ok (PInt 0))
    (dotfile (snd (run (env_ok (PStr "my-site-2")) (Some cfg_initialised) PNone Init)))
    (PStr "RDM") (Build false false true true) =
    (Exit 1,
     {| dotfile := Some configparser.new;
        effects := [LoggingError "Flavour not configured"];
        sigint := default_int_handler |}).
Proof.
  split; [vm_compute; reflexivity|]. split; [apply env_ok_returning|].
  apply (commands_fail_after_second_init (env_ok (PStr "my-site-2")) (env_ok (PInt 0))
           cfg_initialised "RDM" PNone (PStr "RDM") (Build false false true true)).
  - vm_compute; reflexivity.
  - left; reflexivity.
  - apply env_ok_returning.
Defined.

(** ** More on [build] *)

Lemma build_steps_images base app dev lock cwd path dockerfile tag :
  ImagesBuild path dockerfile tag ∈ build_steps base app dev lock cwd →
  dev = false ∧ path = cwd ∧
  ((base = true ∧ dockerfile = "Dockerfile.base" ∧ tag = py_str cwd +:+ "-base:latest") ∨
   (app = true ∧ dockerfile = "Dockerfile" ∧ tag = py_str cwd +:+ ":latest")).
Proof.
  destruct base, app, dev, lock; cbn.
  all: rewrite ?elem_of_cons, elem_of_nil.
  all: intros H.
  all: repeat (destruct H as [H|H];
               [first [discriminate | injection H as -> -> ->; naive_solver]|]).
  all: by destruct H.
Qed.

(** X10. Every external call of a build is given the working directory that
    loading found (the [cwd] of the file, or none), in any world; images are
    built only in prod mode, from that directory, and their tags are that
    directory's name followed by [-base:latest] or [:latest]. *)
Theorem build_calls_use_loaded_cwd env file flavour obj s0 cwd base app dev lock :
  cli flavour env (boot file) = (Ok obj, s0) →
  obj !! "cwd" = Some cwd →
  ∀ e, e ∈ external_calls (effects (snd (run env file flavour (Build base app dev lock)))) →
       call_cwd e = Some cwd ∧
       ∀ path dockerfile tag, e = ImagesBuild path dockerfile tag →
         dev = false ∧ path = cwd ∧
         ((base = true ∧ dockerfile = "Dockerfile.base" ∧
           tag = py_str cwd +:+ "-base:latest") ∨
          (app = true ∧ dockerfile = "Dockerfile" ∧ tag = py_str cwd +:+ ":latest")).
Proof.
  intros Hcli Hcwd e He.
  destruct (run_build_spec env file flavour obj s0 cwd base app dev lock Hcli Hcwd)
    as [[k Hp] _].
  assert (e ∈ build_steps base app dev lock cwd) as Hin.
  { rewrite Hp. apply elem_of_app. by left. }
  split; [by eapply build_steps_cwd|].
  intros path dockerfile tag ->. by eapply build_steps_images.
Qed.

Lemma build_calls_use_loaded_cwd_witness :
  cli PNone env_lock_fails (boot (Some cfg_initialised)) =
    (Ok (loaded_self cfg_initialised "RDM"), boot (Some cfg_initialised)) ∧
  loaded_self cfg_initialised "RDM" !! "cwd" = Some (PStr "my-site") ∧
  ∀ e, e ∈ external_calls (effects (snd (run env_lock_fails (Some cfg_initialised) PNone
                                           (Build true true false true)))) →
       call_cwd e = Some (PStr "my-site") ∧
       ∀ path dockerfile tag, e = ImagesBuild path dockerfile tag →
         false = false ∧ path = PStr "my-site" ∧
         ((true = true ∧ dockerfile = "Dockerfile.base" ∧
           tag = py_str (PStr "my-site") +:+ "-base:latest") ∨
          (true = true ∧ dockerfile = "Dockerfile" ∧
           tag = py_str (PStr "my-site") +:+ ":latest")).
Proof.
  split; [vm_compute; reflexivity|]. split; [vm_compute; reflexivity|].
  apply (build_calls_use_loaded_cwd env_lock_fails (Some cfg_initialised) PNone
           (loaded_self cfg_initialised "RDM") (boot (Some cfg_initialised))
           (PStr "my-site") true true false true).
  - vm_compute; reflexivity.
  - vm_compute; reflexivity.
Defined.

(** X11. In any world a build that was loaded never ends with [SystemExit]:
    it returns, or an exception of a call (or [KeyboardInterrupt]) goes
    through; and when it returns it has made every call of its sequence,
    even if calls exited with a failure status. *)
Theorem build_returns_only_after_all_steps env file flavour obj s0 cwd base app dev lock :
  cli flavour env (boot file) = (Ok obj, s0) →
  obj !! "cwd" = Some cwd →
  (∀ code, fst (run env file flavour (Build base app dev lock)) ≠ Exit code) ∧
  (fst (run env file flavour (Build base app dev lock)) = Ok tt →
   external_calls (effects (snd (run env file flavour (Build base app dev lock))))
     = build_steps base app dev lock cwd).
Proof.
  intros Hcli Hcwd. rewrite (run_after_load _ _ _ _ _ _ Hcli). cbn [invoke].
  pose proof (cli_ok_inv _ _ _ _ _ Hcli) as Hl.
  destruct (loaded_quiet _ _ _ Hl) as (_ & Hsig & Hnone).
  destruct Hl as [_ _ [fl Hfl] _ _ _].
  destruct (build_any_world env obj s0 fl cwd base app dev lock Hsig Hfl Hcwd)
    as (r & l & -> & _ & Hok & Hexit).
  cbn [fst snd]. split; [done|].
  intros ->. cbn. unfold external_calls in *.
  by rewrite List.filter_app, Hnone, Hok.
Qed.

Lemma build_returns_only_after_all_steps_witness :
  cli PNone env_lock_fails (boot (Some cfg_initialised)) =
    (Ok (loaded_self cfg_initialised "RDM"), boot (Some cfg_initialised)) ∧
  loaded_self cfg_initialised "RDM" !! "cwd" = Some (PStr "my-site") ∧
  (∀ code, fst (run env_lock_fails (Some cfg_initialised) PNone
                  (Build false false true true)) ≠ Exit code) ∧
  (fst (run env_lock_fails (Some cfg_initialised) PNone (Build false false true true))
     = Ok tt →
   external_calls (effects (snd (run env_lock_fails (Some cfg_initialised) PNone
                                   (Build false false true true))))
     = build_steps false false true true (PStr "my-site")).
Proof.
  split; [vm_compute; reflexivity|]. split; [vm_compute; reflexivity|].
  apply (build_returns_only_after_all_steps env_lock_fails (Some cfg_initialised) PNone
           (loaded_self cfg_initialised "RDM") (boot (Some cfg_initialised))
           (PStr "my-site") false false true true).
  - vm_compute; reflexivity.
  - vm_compute; reflexivity.
Defined.

(** ** The interrupt handler of [server] *)

(** X12. The handler that [server] defines cannot stop the containers of an
    object built by [InvenioCli.__init__]: whatever performs its calls, it
    prints its message and raises [AttributeError] for [project_name],
    without any external call. *)
Theorem signal_handler_cannot_stop call env env' file flavour obj s s1 :
  cli flavour env (boot file) = (Ok obj, s) →
  signal_handler call obj env' s1 =
    (Raise (AttributeError "project_name"),
     append_effects s1 [Print "SIGINT, stopping server..."]).
Proof.
  intros Hcli. destruct (cli_ok_inv _ _ _ _ _ Hcli) as [_ Hproj _ _ _ _].
  unfold signal_handler, getattr. rewrite Hproj. reflexivity.
Qed.

Lemma signal_handler_cannot_stop_witness :
  cli PNone (env_ok (PInt 0)) (boot (Some cfg_initialised)) =
    (Ok (loaded_self cfg_initialised "RDM"), boot (Some cfg_initialised)) ∧
  signal_handler external (loaded_self cfg_initialised "RDM") env_two_interrupts
    (boot (Some cfg_initialised)) =
    (Raise (AttributeError "project_name"),
     append_effects (boot (Some cfg_initialised)) [Print "SIGINT, stopping server..."]).
Proof.
  split; [vm_compute; reflexivity|].
  apply (signal_handler_cannot_stop external (env_ok (PInt 0)) env_two_interrupts
           (Some cfg_initialised) PNone (loaded_self cfg_initialised "RDM")
           (boot (Some cfg_initialised)) (boot (Some cfg_initialised))).
  vm_compute; reflexivity.
Defined.

(** ** Loading and the template tool *)

(** X13. Loading the configuration is passive: whatever its outcome, it does
    not depend on the world, leaves the file and the SIGINT handler as they
    are, makes no external call and logs at most one message. *)
Theorem loading_is_passive env env' file flavour :
  cli flavour env (boot file) = cli flavour env' (boot file) ∧
  dotfile (snd (cli flavour env (boot file))) = file ∧
  sigint (snd (cli flavour env (boot file))) = default_int_handler ∧
  external_calls (effects (snd (cli flavour env (boot file)))) = [] ∧
  (length (effects (snd (cli flavour env (boot file)))) ≤ 1)%nat.
Proof.
  split.
  { unfold cli. destruct file as [cfg|].
    - destruct (configparser.getitem cfg "cli" "flavour") as [P|] eqn:Hk.
      + destruct (truthy flavour) eqn:Ht.
        * destruct (decide (flavour = PStr P)) as [->|Hne].
          -- by rewrite !(load_present _ _ _ cfg P) by auto.
          -- by rewrite !(load_mismatch _ _ _ cfg P) by auto.
        * by rewrite !(load_present _ _ _ cfg P) by auto.
      + by rewrite !(load_without_flavour_key _ _ _ cfg) by auto.
    - destruct (truthy flavour) eqn:Ht.
      + by rewrite !load_absent_with_flavour by auto.
      + by rewrite !load_absent_without_flavour by auto. }
  destruct (cli_cases flavour env (boot file)) as [(obj & s & -> & Hl)|[msg ->]].
  - destruct (loaded_quiet _ _ _ Hl) as (Hfile & Hsig & Hnone).
    destruct Hl as [_ _ _ _ _ Hs]. cbn [snd]. repeat split; try done.
    rewrite Hs. cbn. destruct file as [cfg|]; cbn; [|lia].
    unfold loaded_log. destruct (configparser.getitem cfg "cli" "cwd"); cbn; lia.
  - cbn. repeat split; done.
Qed.

(** X14. [init] calls the template tool before it looks at the file: in a
    directory that is already initialised, and in any world, a run of [init]
    makes exactly one external call, the template tool for the persisted
    flavour. *)
Theorem init_runs_template_first env cfg P flavour :
  configparser.getitem cfg "cli" "flavour" = Some P →
  truthy flavour = false ∨ flavour = PStr P →
  external_calls (effects (snd (run env (Some cfg) flavour Init))) = [Cookiecutter (PStr P)].
Proof.
  intros Hk Hm.
  pose proof (load_present flavour env (boot (Some cfg)) cfg P eq_refl Hk Hm) as Hload.
  pose proof (cli_ok_inv _ _ _ _ _ Hload) as Hl.
  destruct (loaded_quiet _ _ _ Hl) as (_ & Hsig & Hnone).
  destruct Hl as [_ _ _ _ Hc _]. cbn in Hc.
  assert (loaded_self cfg P !! "flavour" = Some (PStr P)) as Hfl.
  { unfold loaded_self. destruct (configparser.getitem cfg "cli" "cwd");
      by simplify_map_eq. }
  rewrite (run_after_load _ _ _ _ _ _ Hload). cbn [invoke].
  destruct (init_any_world env _ _ (PStr P) cfg Hsig Hfl Hc)
    as (r & s' & -> & _ & _ & Hcalls & _).
  cbn [snd]. by rewrite Hcalls, Hnone.
Qed.

Lemma init_runs_template_first_witness :
  configparser.getitem cfg_initialised "cli" "flavour" = Some "RDM" ∧
  external_calls (effects (snd (run env_template_fails (Some cfg_initialised) PNone Init)))
    = [Cookiecutter (PStr "RDM")].
Proof.
  split; [vm_compute; reflexivity|].
  apply (init_runs_template_first env_template_fails cfg_initialised "RDM" PNone).
  - vm_compute; reflexivity.
  - left; reflexivity.
Defined.
